(** * The C comment scanner binding of hotdoc: [scannermodule.c]

    [scannermodule.c] is the CPython 2 binding of hotdoc's comment scanner.
    It defines one C function, [scanner_get_comments], a method table
    [ScannerMethods] and the module initialiser [initc_comment_scanner].

    The development embeds the file over a small model of the part of the
    CPython runtime it touches: a store of reference-counted objects, the
    error indicator, the object allocator (which can run out of memory) and
    the three API entry points the binding calls.  The scanning routine
    [scan_filename] lives in another translation unit; it is a parameter of
    the development. *)

From Stdlib Require Import ZArith String Ascii List.
From stdpp Require Import base option gmap strings list fin_maps.

Local Open Scope Z_scope.
Local Open Scope string_scope.
Local Open Scope list_scope.

(** ** Objects and the interpreter state *)

(** Addresses of objects; a [PyObject *] is an address or [NULL]. *)
Abbreviation loc := positive.
Abbreviation ptr := (option loc).
Abbreviation NULL := (@None loc).

(** The values an object can hold.  [PyString] is the byte string of
    Python 2 ([str]); its bytes may include NUL.  [PyOther] stands for an
    object of any type that is not a string type, named by its [tp_name].
    The [unicode] type is not modelled.  Entries of containers are held by
    value: nothing in this file depends on two containers sharing an
    entry. *)
#[warnings="-register-all"]
Inductive PyVal : Type :=
| PyNone
| PyInt (n : Z)
| PyString (s : string)
| PyTuple (items : list PyVal)
| PyList (items : list PyVal)
| PyOther (tp_name : string).

(** [PyObject_HEAD]: the reference count, then the payload. *)
Record PyObject : Type := mkObject {
  ob_refcnt : Z;
  ob_val : PyVal
}.

(** [Py_ssize_t] is a signed 64-bit integer on the LP64 targets. *)
Definition PY_SSIZE_T_MAX : Z := 2 ^ 63 - 1.

(** The exceptions that the modelled API calls can set. *)
Inductive exn : Type :=
| TypeError
| MemoryError.

(** One record per entry into the scanning routine: the two arguments it was
    given and the entries its container held at that moment ([None] when
    the pointer was [NULL] or did not address a list). *)
Record scan_call : Type := mkScanCall {
  sc_filename : string;
  sc_list : ptr;
  sc_entry : option (list PyVal)
}.

(** The interpreter state seen by the binding.
    - [heap]: the live objects;
    - [mem_avail]: how many more objects the allocator can hand out before
      it reports exhaustion;
    - [curexc]: the error indicator of the thread;
    - [scan_calls]: the entries into the scanning routine, oldest first. *)
Record pystate : Type := mkState {
  heap : gmap loc PyObject;
  mem_avail : nat;
  curexc : option exn;
  scan_calls : list scan_call
}.

Definition set_heap (h : gmap loc PyObject) (st : pystate) : pystate :=
  {| heap := h; mem_avail := mem_avail st;
     curexc := curexc st; scan_calls := scan_calls st |}.

Definition PyErr_SetNone (e : exn) (st : pystate) : pystate :=
  {| heap := heap st; mem_avail := mem_avail st;
     curexc := Some e; scan_calls := scan_calls st |}.

Definition log_scan (c : scan_call) (st : pystate) : pystate :=
  {| heap := heap st; mem_avail := mem_avail st;
     curexc := curexc st; scan_calls := scan_calls st ++ [c] |}.

(** ** Computations *)

(** A C call either comes back with a value, or the process dereferences an
    invalid pointer (undefined behaviour, in practice a segmentation
    fault).  Both carry the state reached. *)
Inductive result (A : Type) : Type :=
| Ok (a : A) (st : pystate)
| Fault (st : pystate).
Arguments Ok {A} a st.
Arguments Fault {A} st.

Definition M (A : Type) : Type := pystate → result A.

#[global] Instance M_ret : MRet M := λ A a st, Ok a st.
#[global] Instance M_bind : MBind M := λ A B f m st,
  match m st with
  | Ok a st' => f a st'
  | Fault st' => Fault st'
  end.

Definition state_of {A : Type} (r : result A) : pystate :=
  match r with
  | Ok _ st => st
  | Fault st => st
  end.

Definition is_fault {A : Type} (r : result A) : bool :=
  match r with
  | Ok _ _ => false
  | Fault _ => true
  end.

(** ** C strings *)

Definition NUL : ascii := Ascii.zero.

(** [strlen]: the number of bytes before the first NUL. *)
Fixpoint strlen (s : string) : nat :=
  match s with
  | EmptyString => O
  | String c rest => if Ascii.eqb c NUL then O else S (strlen rest)
  end.

(** What a [const char *] into the buffer of a string object denotes: the
    bytes before the first NUL. *)
Fixpoint c_str (s : string) : string :=
  match s with
  | EmptyString => EmptyString
  | String c rest => if Ascii.eqb c NUL then EmptyString else String c (c_str rest)
  end.

(** ** The CPython API used by the binding *)

(** [PyArg_ParseTuple (args, "s", &filename)].  The argument tuple is given
    by its items.  The call fails with [TypeError] unless the tuple has
    exactly one item, that item is a string object, and the string has no
    embedded NUL byte ([strlen] of its buffer equals its size); on success
    [filename] points into the buffer of the string object.  No reference
    count is touched.  The arity is checked before any item is looked at. *)
Definition PyArg_ParseTuple (args : list loc) : M (option string) := λ st,
  match args with
  | [arg] =>
      match heap st !! arg with
      | None => Fault st
      | Some o =>
          match ob_val o with
          | PyString s =>
              if decide (strlen s = String.length s)
              then Ok (Some (c_str s)) st
              else Ok None (PyErr_SetNone TypeError st)
          | _ => Ok None (PyErr_SetNone TypeError st)
          end
      end
  | _ => Ok None (PyErr_SetNone TypeError st)
  end.

(** [PyList_New (size)]: a new list object at an unused address, holding one
    reference; [NULL] with [MemoryError] when the allocator is exhausted.
    (The slots of a new non-empty list are unset in CPython and are shown as
    [PyNone] here; the binding only asks for size 0.) *)
Definition PyList_New (size : nat) : M ptr := λ st,
  match mem_avail st with
  | O => Ok NULL (PyErr_SetNone MemoryError st)
  | S n =>
      let l := fresh (dom (heap st)) in
      Ok (Some l)
         {| heap := <[l := mkObject 1 (PyList (replicate size PyNone))]> (heap st);
            mem_avail := n;
            curexc := curexc st;
            scan_calls := scan_calls st |}
  end.

(** [Py_INCREF (op)] is a macro that expands to [op->ob_refcnt++]: it
    dereferences [op] unconditionally.  Signed overflow of the count is
    undefined behaviour as well. *)
Definition Py_INCREF (op : ptr) : M unit := λ st,
  match op with
  | None => Fault st
  | Some l =>
      match heap st !! l with
      | None => Fault st
      | Some o =>
          if decide (ob_refcnt o = PY_SSIZE_T_MAX) then Fault st
          else Ok tt (set_heap (<[l := mkObject (ob_refcnt o + 1) (ob_val o)]> (heap st)) st)
      end
  end.

(** The entries of the list object at [p], if [p] addresses one. *)
Definition list_items (st : pystate) (p : ptr) : option (list PyVal) :=
  match p with
  | None => None
  | Some l =>
      match ob_val <$> heap st !! l with
      | Some (PyList items) => Some items
      | _ => None
      end
  end.

(** The string that a call passes as its only argument, if the argument
    tuple is exactly one string object. *)
Definition string_arg (st : pystate) (args : list loc) : option string :=
  match args with
  | [arg] =>
      match ob_val <$> heap st !! arg with
      | Some (PyString s) => Some s
      | _ => None
      end
  | _ => None
  end.

(** Every item of the argument tuple is a live object, as the interpreter
    guarantees for the calls it makes. *)
Definition args_live (st : pystate) (args : list loc) : bool :=
  forallb (λ a, match heap st !! a with Some _ => true | None => false end) args.

(** The entries into the scanning routine made since the state [st]. *)
Definition new_scan_calls {A : Type} (st : pystate) (r : result A) : list scan_call :=
  drop (length (scan_calls st)) (scan_calls (state_of r)).

(** The C convention for an error: [NULL] comes back and the error indicator
    is set. *)
Definition signals_error (r : result ptr) : bool :=
  match r with
  | Ok None st => match curexc st with Some _ => true | None => false end
  | _ => false
  end.

(** Argument parsing came back with 0. *)
Definition parse_fails (args : list loc) (st : pystate) : bool :=
  match PyArg_ParseTuple args st with
  | Ok None _ => true
  | _ => false
  end.

(** ** Sample data *)

(** A string with an embedded NUL byte: the three bytes [a], NUL, [b]. *)
Definition nul_name : string := String "a" (String NUL (String "b" EmptyString)).

(** A scanning routine that finds two comments in every file. *)
Definition two_comments (filename : string) (items : list PyVal) : list PyVal :=
  items ++ [PyString "/* first */"; PyString "/* second */"].

Definition heap_with (v : PyVal) : gmap loc PyObject :=
  {[ 1%positive := mkObject 1 v ]}.

(** A state with one live object at address 1 and room for more. *)
Definition state_with (v : PyVal) : pystate :=
  {| heap := heap_with v; mem_avail := 4%nat; curexc := None; scan_calls := [] |}.

(** The same with the allocator exhausted. *)
Definition exhausted_with (v : PyVal) : pystate :=
  {| heap := heap_with v; mem_avail := 0%nat; curexc := None; scan_calls := [] |}.

(** A state with several live objects, the argument string at address 5, an
    earlier entry into the scanning routine on record, and room for exactly
    one more object. *)
Definition busy_state : pystate :=
  {| heap := {[ 1%positive := mkObject 3 (PyInt 42);
                2%positive := mkObject 1 (PyList [PyString "/* old */"]);
                5%positive := mkObject 2 (PyString "x.c") ]};
     mem_avail := 1%nat;
     curexc := None;
     scan_calls := [mkScanCall "old.c" (Some 2%positive) (Some [])] |}.

(** ** The binding *)

Section Binding.

(** What the scanning routine leaves in its container: from the file name
    and the entries the container holds on entry, the entries it holds on
    return.  The routine is defined outside this file, so this is a
    parameter. *)
Variable scanner : string → list PyVal → list PyVal.

(** Modelled from the spec: [scan_filename (filename, list)] is declared in
    [scanner.h] and defined with the scanner, outside this file.  It is
    given a path and a mutable output container and populates that
    container with the comments.  With a list object at [list], the call
    rewrites the entries of that object by [scanner] and touches nothing
    else.  With [NULL] there is no container to fill; whether the routine
    itself dereferences the pointer is not visible from this file, so the
    model lets it return and leaves the heap alone.  Every call is put on
    record in [scan_calls]. *)
Definition scan_filename (filename : string) (list : ptr) : M unit := λ st,
  let st1 := log_scan (mkScanCall filename list (list_items st list)) st in
  match list, list_items st list with
  | Some l, Some items =>
      Ok tt (set_heap
               (alter (λ o, mkObject (ob_refcnt o) (PyList (scanner filename items))) l
                      (heap st1)) st1)
  | _, _ => Ok tt st1
  end.

(** [static PyObject *scanner_get_comments (PyObject *self, PyObject *args)] *)
Definition scanner_get_comments (self : ptr) (args : list loc) : M ptr :=
  parsed ← PyArg_ParseTuple args;
  match parsed with
  | None => mret NULL
  | Some filename =>
      list ← PyList_New 0;
      scan_filename filename list;;
      Py_INCREF list;;
      mret list
  end.

(** ** The method table and module initialisation *)

Definition PyCFunction : Type := ptr → list loc → M ptr.

Record PyMethodDef : Type := mkMethodDef {
  ml_name : option string;
  ml_meth : option PyCFunction;
  ml_flags : Z;
  ml_doc : option string
}.

Definition METH_VARARGS : Z := 1.

(** The first row of the table, and the sentinel row that ends it. *)
Definition get_comments_entry : PyMethodDef :=
  mkMethodDef (Some "get_comments") (Some scanner_get_comments) METH_VARARGS
              (Some "Get comments from a filename.").

Definition sentinel_entry : PyMethodDef := mkMethodDef None None 0 None.

(** [static PyMethodDef ScannerMethods[]] *)
Definition ScannerMethods : list PyMethodDef :=
  [ get_comments_entry; sentinel_entry ].

Record PyModule : Type := mkModule {
  md_name : string;
  md_methods : gmap string PyMethodDef
}.

(** [Py_InitModule] walks the table up to the sentinel, the entry whose
    [ml_name] is [NULL], and binds each method under its name. *)
Fixpoint add_methods (methods : list PyMethodDef) (d : gmap string PyMethodDef)
  : gmap string PyMethodDef :=
  match methods with
  | [] => d
  | ml :: rest =>
      match ml_name ml with
      | None => d
      | Some name => add_methods rest (<[name := ml]> d)
      end
  end.

(** [Py_InitModule (name, methods)] on the table of loaded modules: the
    module is created if it is not loaded yet. *)
Definition Py_InitModule (name : string) (methods : list PyMethodDef)
    (modules : gmap string PyModule) : gmap string PyModule :=
  let d := from_option md_methods ∅ (modules !! name) in
  <[name := mkModule name (add_methods methods d)]> modules.

(** [PyMODINIT_FUNC initc_comment_scanner (void)] *)
Definition initc_comment_scanner (modules : gmap string PyModule)
  : gmap string PyModule :=
  Py_InitModule "c_comment_scanner" ScannerMethods modules.

(** ** Strings and argument parsing *)

(** A buffer without NUL reads back, as a C string, as the whole string. *)
Lemma c_str_no_nul s : strlen s = String.length s → c_str s = s.
Proof.
  induction s as [|c s IH]; simpl; [done|].
  destruct (Ascii.eqb c NUL); [discriminate|].
  intros [= Hlen]. by rewrite IH.
Qed.

Lemma PyArg_ParseTuple_string args st s :
  string_arg st args = Some s →
  PyArg_ParseTuple args st =
    if decide (strlen s = String.length s) then Ok (Some s) st
    else Ok None (PyErr_SetNone TypeError st).
Proof.
  unfold string_arg, PyArg_ParseTuple.
  destruct args as [|a [|b args]]; try discriminate.
  destruct (heap st !! a) as [[rc v]|]; simpl; [|discriminate].
  destruct v; try discriminate. intros [= ->].
  case_decide; [|done]. by rewrite c_str_no_nul.
Qed.

Lemma PyArg_ParseTuple_not_string args st :
  args_live st args = true → string_arg st args = None →
  PyArg_ParseTuple args st = Ok None (PyErr_SetNone TypeError st).
Proof.
  unfold string_arg, args_live, PyArg_ParseTuple.
  destruct args as [|a [|b args]]; try done. simpl.
  destruct (heap st !! a) as [[rc v]|]; simpl; [|discriminate].
  destruct v; done.
Qed.

Lemma PyArg_ParseTuple_inv args st f st' :
  PyArg_ParseTuple args st = Ok (Some f) st' →
  st' = st ∧ string_arg st args = Some f ∧ strlen f = String.length f.
Proof.
  unfold string_arg, PyArg_ParseTuple.
  destruct args as [|a [|b args]]; try discriminate.
  destruct (heap st !! a) as [[rc v]|]; simpl; [|discriminate].
  destruct v; try discriminate.
  case_decide as Hlen; [|discriminate].
  rewrite (c_str_no_nul _ Hlen). by intros [= <- <-].
Qed.

(** ** The three ways through [scanner_get_comments] *)

Lemma fresh_not_live (h : gmap loc PyObject) : h !! fresh (dom h) = None.
Proof. apply not_elem_of_dom, is_fresh. Qed.

(** Parsing fails: [NULL] comes back at once. *)
Lemma get_comments_parse_failed self args st st' :
  PyArg_ParseTuple args st = Ok None st' →
  scanner_get_comments self args st = Ok NULL st'.
Proof.
  intros Hparse. unfold scanner_get_comments, mbind, M_bind. by rewrite Hparse.
Qed.

Lemma get_comments_parse_fault self args st st' :
  PyArg_ParseTuple args st = Fault st' →
  scanner_get_comments self args st = Fault st'.
Proof.
  intros Hparse. unfold scanner_get_comments, mbind, M_bind. by rewrite Hparse.
Qed.

(** Parsing succeeds and the allocator has room: the new list comes back,
    filled by the scanning routine, with its count raised to 2. *)
Lemma get_comments_allocated self args st f n :
  PyArg_ParseTuple args st = Ok (Some f) st →
  mem_avail st = S n →
  scanner_get_comments self args st =
    Ok (Some (fresh (dom (heap st))))
       {| heap := <[fresh (dom (heap st)) := mkObject 2 (PyList (scanner f []))]> (heap st);
          mem_avail := n;
          curexc := curexc st;
          scan_calls := scan_calls st ++ [mkScanCall f (Some (fresh (dom (heap st)))) (Some [])] |}.
Proof.
  intros Hparse Hmem.
  unfold scanner_get_comments, mbind, M_bind. rewrite Hparse.
  unfold PyList_New. rewrite Hmem. simpl.
  unfold scan_filename, list_items. simpl.
  rewrite lookup_insert_eq. simpl.
  unfold Py_INCREF. simpl.
  rewrite alter_insert_eq, lookup_insert_eq. simpl.
  unfold mret, M_ret, set_heap. simpl.
  by rewrite insert_insert_eq.
Qed.

(** Parsing succeeds and the allocator is exhausted: [NULL] is handed to the
    scanning routine and then dereferenced by [Py_INCREF]. *)
Lemma get_comments_exhausted self args st f :
  PyArg_ParseTuple args st = Ok (Some f) st →
  mem_avail st = O →
  scanner_get_comments self args st =
    Fault (log_scan (mkScanCall f NULL None) (PyErr_SetNone MemoryError st)).
Proof.
  intros Hparse Hmem.
  unfold scanner_get_comments, mbind, M_bind. rewrite Hparse.
  unfold PyList_New. by rewrite Hmem.
Qed.

Lemma PyArg_ParseTuple_cases args st :
  PyArg_ParseTuple args st = Fault st ∨
  PyArg_ParseTuple args st = Ok None (PyErr_SetNone TypeError st) ∨
  ∃ f, PyArg_ParseTuple args st = Ok (Some f) st.
Proof.
  unfold PyArg_ParseTuple.
  destruct args as [|a [|b args]]; auto.
  destruct (heap st !! a) as [[rc v]|]; simpl; auto.
  destruct v; auto. case_decide; eauto.
Qed.

Lemma new_scan_calls_app {A : Type} st (r : result A) cs :
  scan_calls (state_of r) = scan_calls st ++ cs → new_scan_calls st r = cs.
Proof. unfold new_scan_calls. intros ->. by rewrite drop_app_length. Qed.

(** What a call that hands an object back has done. *)
Lemma get_comments_returned self args st s l st' :
  string_arg st args = Some s →
  scanner_get_comments self args st = Ok (Some l) st' →
  heap st !! l = None ∧
  heap st' = <[l := mkObject 2 (PyList (scanner s []))]> (heap st) ∧
  scan_calls st' = scan_calls st ++ [mkScanCall s (Some l) (Some [])] ∧
  curexc st' = curexc st ∧
  mem_avail st = S (mem_avail st').
Proof.
  intros Harg Hrun.
  pose proof (PyArg_ParseTuple_string _ _ _ Harg) as Hparse.
  case_decide as Hlen.
  - destruct (mem_avail st) as [|n] eqn:Hmem.
    + by rewrite (get_comments_exhausted _ _ _ _ Hparse Hmem) in Hrun.
    + rewrite (get_comments_allocated _ _ _ _ _ Hparse Hmem) in Hrun.
      injection Hrun as <- <-. simpl. split_and!; try done. apply fresh_not_live.
  - by rewrite (get_comments_parse_failed _ _ _ _ Hparse) in Hrun.
Qed.

(** Only a call with one string argument hands an object back. *)
Lemma get_comments_returned_string self args st l st' :
  scanner_get_comments self args st = Ok (Some l) st' →
  ∃ s, string_arg st args = Some s.
Proof.
  intros Hrun.
  destruct (PyArg_ParseTuple_cases args st) as [Hparse|[Hparse|[f Hparse]]].
  - by rewrite (get_comments_parse_fault _ _ _ _ Hparse) in Hrun.
  - by rewrite (get_comments_parse_failed _ _ _ _ Hparse) in Hrun.
  - exists f. by destruct (PyArg_ParseTuple_inv _ _ _ _ Hparse) as (_ & ? & _).
Qed.

Lemma list_items_insert st l rc items h :
  heap st = <[l := mkObject rc (PyList items)]> h →
  list_items st (Some l) = Some items.
Proof. unfold list_items. intros ->. by rewrite lookup_insert_eq. Qed.

(** ** The claims *)

(** C1: a call whose argument tuple is not exactly one string (any other
    arity, or one argument of another type) comes back with [NULL] and
    [TypeError] set, before any scanning: the scanning routine is not
    entered and no object is allocated. *)
Theorem get_comments_rejects_malformed_arguments self args st :
  args_live st args = true →
  string_arg st args = None →
  ∃ st', scanner_get_comments self args st = Ok NULL st' ∧
         curexc st' = Some TypeError ∧
         scan_calls st' = scan_calls st ∧
         heap st' = heap st ∧
         mem_avail st' = mem_avail st.
Proof.
  intros Hlive Harg. exists (PyErr_SetNone TypeError st).
  split; [|done].
  apply get_comments_parse_failed. by apply PyArg_ParseTuple_not_string.
Qed.

(** C2, as amended: a call with exactly one string argument that has no
    embedded NUL byte, made while the allocator can still provide the list,
    comes back with a non-null pointer to a list object. *)
Theorem get_comments_returns_list self args st s :
  string_arg st args = Some s →
  strlen s = String.length s →
  mem_avail st ≠ O →
  ∃ l st' items,
    scanner_get_comments self args st = Ok (Some l) st' ∧
    list_items st' (Some l) = Some items.
Proof.
  intros Harg Hlen Hmem.
  pose proof (PyArg_ParseTuple_string _ _ _ Harg) as Hparse.
  rewrite decide_True in Hparse by done.
  destruct (mem_avail st) as [|n] eqn:Hn; [done|].
  eexists _, _, _. split.
  - by apply get_comments_allocated.
  - by eapply list_items_insert.
Qed.

(** C3: in a call with one string argument, a list that is handed to the
    scanning routine is new (its address was unused before the call) and
    empty when the routine is entered; it is the only thing handed over,
    the call returns that same object, and on return it holds exactly what
    the scanning routine left in it, in that order. *)
Theorem get_comments_returns_the_scanned_list self args st s c l :
  string_arg st args = Some s →
  c ∈ new_scan_calls st (scanner_get_comments self args st) →
  sc_list c = Some l →
  heap st !! l = None ∧
  sc_entry c = Some [] ∧
  new_scan_calls st (scanner_get_comments self args st) = [c] ∧
  ∃ st', scanner_get_comments self args st = Ok (Some l) st' ∧
         list_items st' (Some l) = Some (scanner s []).
Proof.
  intros Harg Hin Hl.
  pose proof (PyArg_ParseTuple_string _ _ _ Harg) as Hparse.
  case_decide as Hlen.
  - destruct (mem_avail st) as [|n] eqn:Hmem.
    + rewrite (get_comments_exhausted _ _ _ _ Hparse Hmem) in Hin.
      rewrite (new_scan_calls_app _ _ [mkScanCall s NULL None]) in Hin by done.
      apply list_elem_of_singleton in Hin as ->. discriminate Hl.
    + rewrite (get_comments_allocated _ _ _ _ _ Hparse Hmem) in *.
      rewrite (new_scan_calls_app _ _
                 [mkScanCall s (Some (fresh (dom (heap st)))) (Some [])]) in * by done.
      apply list_elem_of_singleton in Hin as ->. injection Hl as <-.
      split_and!; try done; [apply fresh_not_live|].
      eexists. split; [done|]. by eapply list_items_insert.
  - rewrite (get_comments_parse_failed _ _ _ _ Hparse) in Hin.
    rewrite (new_scan_calls_app _ _ []) in Hin; [|by rewrite app_nil_r].
    by apply elem_of_nil in Hin.
Qed.

(** The count of the list that comes back is 2: the reference made by
    [PyList_New] plus the one added by [Py_INCREF]. *)
Lemma get_comments_refcnt self args st l st' :
  scanner_get_comments self args st = Ok (Some l) st' →
  ob_refcnt <$> heap st' !! l = Some 2.
Proof.
  intros Hrun.
  destruct (get_comments_returned_string _ _ _ _ _ Hrun) as [s Harg].
  destruct (get_comments_returned _ _ _ _ _ _ Harg Hrun) as (_ & -> & _).
  by rewrite lookup_insert_eq.
Qed.

(** Two calls in a row never hand back the same list. *)
Lemma get_comments_consecutive_distinct self1 args1 self2 args2 st s1 s2 l1 st1 l2 st2 :
  string_arg st args1 = Some s1 →
  string_arg st1 args2 = Some s2 →
  scanner_get_comments self1 args1 st = Ok (Some l1) st1 →
  scanner_get_comments self2 args2 st1 = Ok (Some l2) st2 →
  l1 ≠ l2.
Proof.
  intros Harg1 Harg2 Hrun1 Hrun2.
  destruct (get_comments_returned _ _ _ _ _ _ Harg1 Hrun1) as (_ & Hheap & _).
  destruct (get_comments_returned _ _ _ _ _ _ Harg2 Hrun2) as (Hnew & _).
  intros <-. by rewrite Hheap, lookup_insert_eq in Hnew.
Qed.

(** The heap after any call: untouched, or grown by the one new list. *)
Lemma get_comments_heap self args st :
  heap (state_of (scanner_get_comments self args st)) = heap st ∨
  ∃ l items,
    heap st !! l = None ∧
    heap (state_of (scanner_get_comments self args st)) =
      <[l := mkObject 2 (PyList items)]> (heap st).
Proof.
  destruct (PyArg_ParseTuple_cases args st) as [Hparse|[Hparse|[f Hparse]]].
  - left. by rewrite (get_comments_parse_fault _ _ _ _ Hparse).
  - left. by rewrite (get_comments_parse_failed _ _ _ _ Hparse).
  - destruct (mem_avail st) as [|n] eqn:Hmem.
    + left. by rewrite (get_comments_exhausted _ _ _ _ Hparse Hmem).
    + right. rewrite (get_comments_allocated _ _ _ _ _ Hparse Hmem).
      eexists _, _. split; [apply fresh_not_live|done].
Qed.

(** C5, as amended: the call signals an error to its caller exactly when
    argument parsing fails.  For a single string argument parsing fails
    exactly when the string has an embedded NUL byte; otherwise, when the
    allocator can provide the list, the call sets no error, enters the
    scanning routine once and returns the list. *)
Theorem get_comments_error_iff_parse_failure self args st :
  (signals_error (scanner_get_comments self args st) = true ↔
   parse_fails args st = true) ∧
  (∀ s, string_arg st args = Some s →
     (parse_fails args st = true ↔ strlen s ≠ String.length s) ∧
     (strlen s = String.length s → mem_avail st ≠ O →
        ∃ l st',
          scanner_get_comments self args st = Ok (Some l) st' ∧
          curexc st' = curexc st ∧
          new_scan_calls st (scanner_get_comments self args st)
            = [mkScanCall s (Some l) (Some [])])).
Proof.
  split.
  - unfold parse_fails.
    destruct (PyArg_ParseTuple_cases args st) as [Hparse|[Hparse|[f Hparse]]].
    + by rewrite (get_comments_parse_fault _ _ _ _ Hparse), Hparse.
    + by rewrite (get_comments_parse_failed _ _ _ _ Hparse), Hparse.
    + rewrite Hparse. destruct (mem_avail st) as [|n] eqn:Hmem.
      * by rewrite (get_comments_exhausted _ _ _ _ Hparse Hmem).
      * by rewrite (get_comments_allocated _ _ _ _ _ Hparse Hmem).
  - intros s Harg.
    pose proof (PyArg_ParseTuple_string _ _ _ Harg) as Hparse.
    unfold parse_fails. split.
    + rewrite Hparse. by case_decide.
    + intros Hlen Hmem. rewrite decide_True in Hparse by done.
      destruct (mem_avail st) as [|n] eqn:Hn; [done|].
      rewrite (get_comments_allocated _ _ _ _ _ Hparse Hn).
      eexists _, _. split_and!; try done.
      by apply new_scan_calls_app.
Qed.

(** C7: the binding leaves every object that was live before the call as it
    was, the argument objects included: same reference count, same value.
    The only difference a call can make to the heap is the one new list, and
    a call that hands the list back leaves the error indicator as it found
    it. *)
Theorem get_comments_frame self args st :
  (∀ l o, heap st !! l = Some o →
          heap (state_of (scanner_get_comments self args st)) !! l = Some o) ∧
  (heap (state_of (scanner_get_comments self args st)) = heap st ∨
   ∃ l items,
     heap st !! l = None ∧
     heap (state_of (scanner_get_comments self args st)) =
       <[l := mkObject 2 (PyList items)]> (heap st)) ∧
  (∀ l st', scanner_get_comments self args st = Ok (Some l) st' →
            curexc st' = curexc st).
Proof.
  split_and!; [|apply get_comments_heap|].
  - intros l o Hl.
    destruct (get_comments_heap self args st) as [->|(l' & items & Hnew & ->)]; [done|].
    rewrite lookup_insert_ne; [done|]. intros ->. congruence.
  - intros l st' Hrun.
    destruct (get_comments_returned_string _ _ _ _ _ Hrun) as [s Harg].
    by destruct (get_comments_returned _ _ _ _ _ _ Harg Hrun) as (_ & _ & _ & ? & _).
Qed.

(** C8: once parsing has succeeded, whatever [PyList_New] hands back goes to
    the scanning routine and to [Py_INCREF] without a check.  If it is
    [NULL] the call ends in an invalid dereference; if it is not, both uses
    go through and the pointer is returned. *)
Theorem get_comments_unchecked_allocation self args st filename :
  PyArg_ParseTuple args st = Ok (Some filename) st →
  ∃ p st1,
    PyList_New 0 st = Ok p st1 ∧
    new_scan_calls st (scanner_get_comments self args st)
      = [mkScanCall filename p (list_items st1 p)] ∧
    (p = NULL ↔ is_fault (scanner_get_comments self args st) = true) ∧
    (p ≠ NULL → ∃ st', scanner_get_comments self args st = Ok p st').
Proof.
  intros Hparse. unfold PyList_New.
  destruct (mem_avail st) as [|n] eqn:Hmem.
  - rewrite (get_comments_exhausted _ _ _ _ Hparse Hmem).
    eexists _, _. split; [done|]. split_and!; try done.
    by apply new_scan_calls_app.
  - rewrite (get_comments_allocated _ _ _ _ _ Hparse Hmem).
    eexists _, _. split; [done|]. split_and!; try done.
    + apply new_scan_calls_app. simpl. by rewrite lookup_insert_eq.
    + eauto.
Qed.

(** C9: in a call with one string argument, every entry into the scanning
    routine carries, as its file name, exactly the bytes of that argument;
    and when parsing accepts the argument the routine is entered once. *)
Theorem get_comments_forwards_filename self args st s :
  string_arg st args = Some s →
  (∀ c, c ∈ new_scan_calls st (scanner_get_comments self args st) →
        sc_filename c = s) ∧
  (strlen s = String.length s →
   ∃ c, new_scan_calls st (scanner_get_comments self args st) = [c] ∧
        sc_filename c = s).
Proof.
  intros Harg.
  pose proof (PyArg_ParseTuple_string _ _ _ Harg) as Hparse.
  case_decide as Hlen.
  - destruct (mem_avail st) as [|n] eqn:Hmem.
    + rewrite (get_comments_exhausted _ _ _ _ Hparse Hmem).
      rewrite (new_scan_calls_app _ _ [mkScanCall s NULL None]) by done.
      split; [|by eauto].
      by intros c ->%list_elem_of_singleton.
    + rewrite (get_comments_allocated _ _ _ _ _ Hparse Hmem).
      rewrite (new_scan_calls_app _ _
                 [mkScanCall s (Some (fresh (dom (heap st)))) (Some [])]) by done.
      split; [|by eauto].
      by intros c ->%list_elem_of_singleton.
  - rewrite (get_comments_parse_failed _ _ _ _ Hparse).
    rewrite (new_scan_calls_app _ _ []); [|by rewrite app_nil_r].
    split; [|done]. by intros c ?%elem_of_nil.
Qed.

(** C10: with the scanning routine a function of the file name and of the
    entries it is given, two calls with the same file name that hand back a
    list hand back lists with the same entries, whatever the two states. *)
Theorem get_comments_deterministic self1 self2 args1 args2 st1 st2 s l1 l2 st1' st2' :
  string_arg st1 args1 = Some s →
  string_arg st2 args2 = Some s →
  scanner_get_comments self1 args1 st1 = Ok (Some l1) st1' →
  scanner_get_comments self2 args2 st2 = Ok (Some l2) st2' →
  list_items st1' (Some l1) = list_items st2' (Some l2) ∧
  list_items st1' (Some l1) = Some (scanner s []).
Proof.
  intros Harg1 Harg2 Hrun1 Hrun2.
  destruct (get_comments_returned _ _ _ _ _ _ Harg1 Hrun1) as (_ & Hheap1 & _).
  destruct (get_comments_returned _ _ _ _ _ _ Harg2 Hrun2) as (_ & Hheap2 & _).
  by rewrite (list_items_insert _ _ _ _ _ Hheap1), (list_items_insert _ _ _ _ _ Hheap2).
Qed.

(** C6: the method table has one entry before its sentinel, named
    "get_comments" and bound to [scanner_get_comments]; initialising the
    module registers that one method under that name and nothing else. *)
Theorem module_exposes_only_get_comments :
  ml_name get_comments_entry = Some "get_comments" ∧
  ml_meth get_comments_entry = Some scanner_get_comments ∧
  add_methods ScannerMethods ∅ = {[ "get_comments" := get_comments_entry ]} ∧
  dom (add_methods ScannerMethods ∅) = {[ "get_comments" ]} ∧
  initc_comment_scanner ∅ =
    {[ "c_comment_scanner" :=
         mkModule "c_comment_scanner" {[ "get_comments" := get_comments_entry ]} ]} ∧
  ∀ modules,
    initc_comment_scanner modules !! "c_comment_scanner" =
      Some (mkModule "c_comment_scanner"
              (<[ "get_comments" := get_comments_entry ]>
                 (from_option md_methods ∅ (modules !! "c_comment_scanner")))).
Proof.
  split_and!; try done.
  intros modules. unfold initc_comment_scanner, Py_InitModule.
  by rewrite lookup_insert_eq.
Qed.

(** ** Further properties of the binding *)



(** X3: on an argument tuple of live objects the call ends in an invalid
    dereference exactly when parsing accepts the argument and the allocator
    is exhausted; rejected arguments never get that far. *)
Theorem get_comments_fault_iff self args st :
  args_live st args = true →
  (is_fault (scanner_get_comments self args st) = true ↔
   ∃ s, string_arg st args = Some s ∧
        strlen s = String.length s ∧
        mem_avail st = O).
Proof.
  intros Hlive.
  destruct (string_arg st args) as [s|] eqn:Harg.
  - pose proof (PyArg_ParseTuple_string _ _ _ Harg) as Hparse.
    case_decide as Hlen.
    + destruct (mem_avail st) as [|n] eqn:Hmem.
      * rewrite (get_comments_exhausted _ _ _ _ Hparse Hmem).
        split; [intros _; by exists s|done].
      * rewrite (get_comments_allocated _ _ _ _ _ Hparse Hmem).
        split; [done|]. by intros (s0 & _ & _ & Hzero).
    + rewrite (get_comments_parse_failed _ _ _ _ Hparse).
      split; [done|]. intros (s0 & [= <-] & Hlen0 & _). done.
  - rewrite (get_comments_parse_failed _ _ _ _
               (PyArg_ParseTuple_not_string _ _ Hlive Harg)).
    split; [done|]. by intros (s0 & Hsome & _).
Qed.

(** X4: of two calls made one after the other, the second hands back a
    different list and leaves the first list as it was; both lists stay
    live with a count of 2. *)
Theorem get_comments_twice self1 args1 self2 args2 st l1 st1 l2 st2 :
  scanner_get_comments self1 args1 st = Ok (Some l1) st1 →
  scanner_get_comments self2 args2 st1 = Ok (Some l2) st2 →
  l1 ≠ l2 ∧
  heap st2 !! l1 = heap st1 !! l1 ∧
  ob_refcnt <$> heap st2 !! l1 = Some 2 ∧
  ob_refcnt <$> heap st2 !! l2 = Some 2.
Proof.
  intros Hrun1 Hrun2.
  destruct (get_comments_returned_string _ _ _ _ _ Hrun1) as [s1 Harg1].
  destruct (get_comments_returned_string _ _ _ _ _ Hrun2) as [s2 Harg2].
  assert (l1 ≠ l2) as Hne
    by exact (get_comments_consecutive_distinct _ _ _ _ _ _ _ _ _ _ _
                Harg1 Harg2 Hrun1 Hrun2).
  destruct (get_comments_returned _ _ _ _ _ _ Harg2 Hrun2) as (_ & Hheap2 & _).
  assert (heap st2 !! l1 = heap st1 !! l1) as Hkept.
  { rewrite Hheap2. by rewrite lookup_insert_ne. }
  split_and!; try done.
  - rewrite Hkept. by eapply get_comments_refcnt.
  - by eapply get_comments_refcnt.
Qed.



(** X7: initialising the module a second time changes nothing, and
    initialising it leaves every other loaded module as it was. *)
Theorem initc_comment_scanner_idempotent modules :
  initc_comment_scanner (initc_comment_scanner modules)
    = initc_comment_scanner modules ∧
  ∀ name, name ≠ "c_comment_scanner" →
          initc_comment_scanner modules !! name = modules !! name.
Proof.
  unfold initc_comment_scanner, Py_InitModule. split.
  - rewrite lookup_insert_eq. simpl.
    by rewrite !insert_insert_eq.
  - intros name Hname. by rewrite lookup_insert_ne.
Qed.

End Binding.

(** ** The claims on sample calls *)

Example get_comments_sample_call :
  scanner_get_comments two_comments NULL [1%positive] (state_with (PyString "x.c"))
  = Ok (Some 2%positive)
       {| heap := {[ 1%positive := mkObject 1 (PyString "x.c");
                     2%positive := mkObject 2 (PyList [PyString "/* first */";
                                                       PyString "/* second */"]) ]};
          mem_avail := 3%nat;
          curexc := None;
          scan_calls := [mkScanCall "x.c" (Some 2%positive) (Some [])] |}.
Proof. by vm_compute. Qed.

Example get_comments_no_argument :
  scanner_get_comments two_comments NULL [] (state_with (PyString "x.c"))
  = Ok NULL (PyErr_SetNone TypeError (state_with (PyString "x.c"))).
Proof. reflexivity. Qed.

Example get_comments_two_arguments :
  scanner_get_comments two_comments NULL [1%positive; 1%positive]
    (state_with (PyString "x.c"))
  = Ok NULL (PyErr_SetNone TypeError (state_with (PyString "x.c"))).
Proof. reflexivity. Qed.

Example get_comments_list_argument :
  scanner_get_comments two_comments NULL [2%positive] busy_state
  = Ok NULL (PyErr_SetNone TypeError busy_state).
Proof. reflexivity. Qed.

Example get_comments_exhausted_allocator :
  scanner_get_comments two_comments NULL [1%positive] (exhausted_with (PyString "x.c"))
  = Fault {| heap := heap_with (PyString "x.c");
             mem_avail := 0%nat;
             curexc := Some MemoryError;
             scan_calls := [mkScanCall "x.c" NULL None] |}.
Proof. reflexivity. Qed.

Example initc_comment_scanner_methods :
  dom <$> (md_methods <$> initc_comment_scanner two_comments ∅ !! "c_comment_scanner")
  = Some {[ "get_comments" ]}.
Proof. by vm_compute. Qed.

Lemma get_comments_rejects_malformed_arguments_witness :
  args_live (state_with (PyInt 7)) [1%positive] = true ∧
  string_arg (state_with (PyInt 7)) [1%positive] = None ∧
  ∃ st',
    scanner_get_comments two_comments NULL [1%positive] (state_with (PyInt 7))
      = Ok NULL st' ∧
    curexc st' = Some TypeError ∧
    scan_calls st' = scan_calls (state_with (PyInt 7)) ∧
    heap st' = heap (state_with (PyInt 7)) ∧
    mem_avail st' = mem_avail (state_with (PyInt 7)).
Proof.
  split; [reflexivity|]. split; [reflexivity|].
  apply (get_comments_rejects_malformed_arguments
           two_comments NULL [1%positive] (state_with (PyInt 7)));
    reflexivity.
Defined.

(** C2 fails as stated: a single string argument with an embedded NUL byte
    brings [NULL] back, and with the allocator exhausted the call does not
    return at all. *)
Lemma get_comments_does_not_always_return_a_list :
  (string_arg (state_with (PyString nul_name)) [1%positive] = Some nul_name ∧
   scanner_get_comments two_comments NULL [1%positive] (state_with (PyString nul_name))
     = Ok NULL (PyErr_SetNone TypeError (state_with (PyString nul_name)))) ∧
  (string_arg (exhausted_with (PyString "x.c")) [1%positive] = Some "x.c" ∧
   is_fault (scanner_get_comments two_comments NULL [1%positive]
               (exhausted_with (PyString "x.c"))) = true).
Proof. by vm_compute. Qed.

Lemma get_comments_returns_list_witness :
  string_arg (state_with (PyString "x.c")) [1%positive] = Some "x.c" ∧
  strlen "x.c" = String.length "x.c" ∧
  mem_avail (state_with (PyString "x.c")) ≠ O ∧
  ∃ l st' items,
    scanner_get_comments two_comments NULL [1%positive] (state_with (PyString "x.c"))
      = Ok (Some l) st' ∧
    list_items st' (Some l) = Some items.
Proof.
  split; [reflexivity|]. split; [reflexivity|]. split; [discriminate|].
  apply (get_comments_returns_list
           two_comments NULL [1%positive] (state_with (PyString "x.c")) "x.c");
    [reflexivity|reflexivity|discriminate].
Defined.

Lemma get_comments_returns_the_scanned_list_witness :
  string_arg busy_state [5%positive] = Some "x.c" ∧
  mkScanCall "x.c" (Some 6%positive) (Some [])
    ∈ new_scan_calls busy_state
        (scanner_get_comments two_comments NULL [5%positive] busy_state) ∧
  heap busy_state !! 6%positive = None ∧
  new_scan_calls busy_state
      (scanner_get_comments two_comments NULL [5%positive] busy_state)
    = [mkScanCall "x.c" (Some 6%positive) (Some [])] ∧
  ∃ st',
    scanner_get_comments two_comments NULL [5%positive] busy_state
      = Ok (Some 6%positive) st' ∧
    list_items st' (Some 6%positive) = Some (two_comments "x.c" []).
Proof.
  assert (Hin : mkScanCall "x.c" (Some 6%positive) (Some [])
                  ∈ new_scan_calls busy_state
                      (scanner_get_comments two_comments NULL [5%positive] busy_state)).
  { vm_compute. apply list_elem_of_here. }
  split; [reflexivity|]. split; [exact Hin|].
  destruct (get_comments_returns_the_scanned_list
              two_comments NULL [5%positive] busy_state "x.c"
              (mkScanCall "x.c" (Some 6%positive) (Some [])) 6%positive
              eq_refl Hin eq_refl) as (Hnew & _ & Hcalls & Hret).
  exact (conj Hnew (conj Hcalls Hret)).
Defined.

(** C4 on a sample call: the list that comes back from a successful call
    carries a reference count of 2, one more than the single reference the
    caller receives. *)
Theorem get_comments_returns_refcnt_two :
  ∃ st',
    scanner_get_comments two_comments NULL [1%positive] (state_with (PyString "x.c"))
      = Ok (Some 2%positive) st' ∧
    heap st' !! 2%positive
      = Some (mkObject 2 (PyList [PyString "/* first */"; PyString "/* second */"])).
Proof. eexists. split; by vm_compute. Qed.

(** C5 fails as stated: a call with exactly one string argument signals an
    error when the string has an embedded NUL byte, and with the allocator
    exhausted it does not reach the return. *)
Lemma get_comments_single_string_can_fail :
  (string_arg (state_with (PyString nul_name)) [1%positive] = Some nul_name ∧
   signals_error
     (scanner_get_comments two_comments NULL [1%positive]
        (state_with (PyString nul_name))) = true ∧
   new_scan_calls (state_with (PyString nul_name))
     (scanner_get_comments two_comments NULL [1%positive]
        (state_with (PyString nul_name))) = []) ∧
  (string_arg (exhausted_with (PyString "x.c")) [1%positive] = Some "x.c" ∧
   ¬ ∃ p st',
       scanner_get_comments two_comments NULL [1%positive]
         (exhausted_with (PyString "x.c")) = Ok p st').
Proof.
  split; [by vm_compute|]. split; [by vm_compute|].
  intros (p & st' & Hrun). vm_compute in Hrun. discriminate Hrun.
Qed.

Lemma get_comments_error_iff_parse_failure_witness :
  string_arg busy_state [5%positive] = Some "x.c" ∧
  strlen "x.c" = String.length "x.c" ∧
  mem_avail busy_state ≠ O ∧
  ∃ l st',
    scanner_get_comments two_comments NULL [5%positive] busy_state = Ok (Some l) st' ∧
    curexc st' = curexc busy_state ∧
    new_scan_calls busy_state
        (scanner_get_comments two_comments NULL [5%positive] busy_state)
      = [mkScanCall "x.c" (Some l) (Some [])].
Proof.
  split; [reflexivity|]. split; [reflexivity|]. split; [discriminate|].
  destruct (get_comments_error_iff_parse_failure
              two_comments NULL [5%positive] busy_state) as [_ Hstring].
  destruct (Hstring "x.c" eq_refl) as [_ Hpath].
  apply Hpath; [reflexivity|discriminate].
Defined.

Lemma get_comments_frame_witness :
  heap busy_state !! 5%positive = Some (mkObject 2 (PyString "x.c")) ∧
  heap (state_of (scanner_get_comments two_comments NULL [5%positive] busy_state))
    !! 5%positive = Some (mkObject 2 (PyString "x.c")).
Proof.
  split; [reflexivity|].
  destruct (get_comments_frame two_comments NULL [5%positive] busy_state)
    as [Hkept _].
  apply Hkept. reflexivity.
Defined.

Lemma get_comments_unchecked_allocation_witness :
  PyArg_ParseTuple [1%positive] (exhausted_with (PyString "x.c"))
    = Ok (Some "x.c") (exhausted_with (PyString "x.c")) ∧
  ∃ p st1,
    PyList_New 0 (exhausted_with (PyString "x.c")) = Ok p st1 ∧
    new_scan_calls (exhausted_with (PyString "x.c"))
        (scanner_get_comments two_comments NULL [1%positive]
           (exhausted_with (PyString "x.c")))
      = [mkScanCall "x.c" p (list_items st1 p)] ∧
    (p = NULL ↔
     is_fault (scanner_get_comments two_comments NULL [1%positive]
                 (exhausted_with (PyString "x.c"))) = true) ∧
    (p ≠ NULL →
     ∃ st', scanner_get_comments two_comments NULL [1%positive]
              (exhausted_with (PyString "x.c")) = Ok p st').
Proof.
  split; [reflexivity|].
  apply (get_comments_unchecked_allocation
           two_comments NULL [1%positive] (exhausted_with (PyString "x.c")) "x.c").
  reflexivity.
Defined.

Lemma get_comments_forwards_filename_witness :
  string_arg busy_state [5%positive] = Some "x.c" ∧
  strlen "x.c" = String.length "x.c" ∧
  ∃ c,
    new_scan_calls busy_state
        (scanner_get_comments two_comments NULL [5%positive] busy_state) = [c] ∧
    sc_filename c = "x.c".
Proof.
  split; [reflexivity|]. split; [reflexivity|].
  destruct (get_comments_forwards_filename
              two_comments NULL [5%positive] busy_state "x.c" eq_refl)
    as [_ Honce].
  apply Honce. reflexivity.
Defined.

Lemma get_comments_deterministic_witness :
  string_arg (state_with (PyString "x.c")) [1%positive] = Some "x.c" ∧
  string_arg busy_state [5%positive] = Some "x.c" ∧
  list_items
    (state_of (scanner_get_comments two_comments NULL [1%positive]
                 (state_with (PyString "x.c"))))
    (Some 2%positive)
  = list_items
      (state_of (scanner_get_comments two_comments (Some 1%positive) [5%positive]
                   busy_state))
      (Some 6%positive).
Proof.
  split; [reflexivity|]. split; [reflexivity|].
  apply (get_comments_deterministic two_comments NULL (Some 1%positive)
           [1%positive] [5%positive] (state_with (PyString "x.c")) busy_state
           "x.c" 2%positive 6%positive
           (state_of (scanner_get_comments two_comments NULL [1%positive]
                        (state_with (PyString "x.c"))))
           (state_of (scanner_get_comments two_comments (Some 1%positive)
                        [5%positive] busy_state))
           eq_refl eq_refl);
    vm_compute; reflexivity.
Defined.

(** ** The further properties on sample calls *)



Lemma get_comments_fault_iff_witness :
  args_live (exhausted_with (PyString "x.c")) [1%positive] = true ∧
  (∃ s, string_arg (exhausted_with (PyString "x.c")) [1%positive] = Some s ∧
        strlen s = String.length s ∧
        mem_avail (exhausted_with (PyString "x.c")) = O) ∧
  is_fault (scanner_get_comments two_comments NULL [1%positive]
              (exhausted_with (PyString "x.c"))) = true.
Proof.
  assert (Hin : ∃ s, string_arg (exhausted_with (PyString "x.c")) [1%positive] = Some s ∧
                     strlen s = String.length s ∧
                     mem_avail (exhausted_with (PyString "x.c")) = O).
  { exists "x.c". split; [reflexivity|]. split; reflexivity. }
  split; [reflexivity|]. split; [exact Hin|].
  destruct (get_comments_fault_iff two_comments NULL [1%positive]
              (exhausted_with (PyString "x.c")) eq_refl) as [_ Hback].
  exact (Hback Hin).
Defined.

Lemma get_comments_twice_witness :
  2%positive ≠ 3%positive ∧
  heap (state_of
          (scanner_get_comments two_comments NULL [1%positive]
             (state_of (scanner_get_comments two_comments NULL [1%positive]
                          (state_with (PyString "x.c"))))))
    !! 2%positive
  = heap (state_of (scanner_get_comments two_comments NULL [1%positive]
                      (state_with (PyString "x.c"))))
      !! 2%positive ∧
  ob_refcnt <$>
    heap (state_of
            (scanner_get_comments two_comments NULL [1%positive]
               (state_of (scanner_get_comments two_comments NULL [1%positive]
                            (state_with (PyString "x.c"))))))
      !! 2%positive = Some 2 ∧
  ob_refcnt <$>
    heap (state_of
            (scanner_get_comments two_comments NULL [1%positive]
               (state_of (scanner_get_comments two_comments NULL [1%positive]
                            (state_with (PyString "x.c"))))))
      !! 3%positive = Some 2.
Proof.
  apply (get_comments_twice two_comments NULL [1%positive] NULL [1%positive]
           (state_with (PyString "x.c")) 2%positive
           (state_of (scanner_get_comments two_comments NULL [1%positive]
                        (state_with (PyString "x.c"))))
           3%positive
           (state_of
              (scanner_get_comments two_comments NULL [1%positive]
                 (state_of (scanner_get_comments two_comments NULL [1%positive]
                              (state_with (PyString "x.c")))))));
    vm_compute; reflexivity.
Defined.



Lemma initc_comment_scanner_idempotent_witness :
  "os" ≠ "c_comment_scanner" ∧
  initc_comment_scanner two_comments {[ "os" := mkModule "os" ∅ ]} !! "os"
    = Some (mkModule "os" ∅).
Proof.
  split; [discriminate|].
  destruct (initc_comment_scanner_idempotent two_comments
              {[ "os" := mkModule "os" ∅ ]}) as [_ Hother].
  rewrite (Hother "os"); [reflexivity|discriminate].
Defined.
